(** * marshmallow-polyfield: the [PolyField] dispatch, embedded in Rocq

    Source: [src/marshmallow_polyfield/polyfield.py].

    The module defines one class, [PolyField], with two methods,
    [_deserialize] and [_serialize].  Both call back into code the module
    does not own: the two selector callables given at construction time, the
    constructor of a class a selector may return, and the [deserialize],
    [load] and [dump] methods of the object finally chosen.  These callbacks
    are arbitrary Python: they may raise, and they may read and write the
    [context] dictionaries that [PolyField] itself mutates in place.

    The embedding therefore is store passing with exceptions:
    - the store holds the [context] dictionaries, addressed by location, so
      that two objects sharing one dictionary see each other's writes;
    - a computation maps a store to an outcome (an exception or a value)
      and the store it leaves behind: an exception does not roll back what
      was written before it;
    - every callback is a computation of that kind.                        *)

From stdpp Require Import base option list strings gmap fin_maps.
From Stdlib Require Import ZArith.

Set Warnings "-register-all".

Local Open Scope Z_scope.
Local Open Scope string_scope.
Local Open Scope list_scope.

(** ** Python data *)

(** The data that flows through the field: what is deserialized, what is
    produced, the enclosing [data] / [obj], and exception arguments.
    [VResult] is marshmallow 2's [UnmarshalResult] / [MarshalResult], a
    named tuple with the fields [data] and [errors]. *)
Inductive pyval : Type :=
| VNone
| VBool (b : bool)
| VInt (z : Z)
| VStr (s : string)
| VList (l : list pyval)
| VDict (kv : list (string * pyval))
| VObject (cls : string) (attrs : list (string * pyval))
| VResult (data errors : pyval).

(** Python truth value, as tested by [if x:]. *)
Definition truthy (v : pyval) : bool :=
  match v with
  | VNone => false
  | VBool b => b
  | VInt z => negb (Z.eqb z 0)
  | VStr s => negb (String.eqb s EmptyString)
  | VList l => match l with [] => false | _ => true end
  | VDict kv => match kv with [] => false | _ => true end
  | VObject _ _ => true
  | VResult _ _ => true
  end.

(** [str(type(v))], shortened to the class name. *)
Definition value_type_name (v : pyval) : string :=
  match v with
  | VNone => "NoneType"
  | VBool _ => "bool"
  | VInt _ => "int"
  | VStr _ => "str"
  | VList _ => "list"
  | VDict _ => "dict"
  | VObject cls _ => cls
  | VResult _ _ => "UnmarshalResult"
  end.

Fixpoint chars (s : string) : list pyval :=
  match s with
  | EmptyString => []
  | String c s' => VStr (String c EmptyString) :: chars s'
  end.

(** What [for v in value] yields, or [None] where the value is not
    iterable. *)
Definition py_iter (v : pyval) : option (list pyval) :=
  match v with
  | VList l => Some l
  | VStr s => Some (chars s)
  | VDict kv => Some (map (fun p => VStr (fst p)) kv)
  | VResult d e => Some [d; e]
  | VNone | VBool _ | VInt _ | VObject _ _ => None
  end.

(** ** Exceptions *)

(** Exceptions are the instances of Python's [Exception]: what a bare
    [except Exception] catches.  The argument of an exception is either a
    plain value (a message string, a dictionary of errors) or one of the two
    messages [PolyField] formats, kept as the arguments given to [format]. *)
Inductive exn : Type :=
| ValidationError (arg : exn_arg)
| TypeError (arg : exn_arg)
| ValueError (arg : exn_arg)
| AttributeError (arg : exn_arg)
| IndexError (arg : exn_arg)
| OtherException (cls : string) (arg : exn_arg)
with exn_arg : Type :=
| Plain (v : pyval)
  (* "Unable to use schema. ... passed in {value_passed}. This is the class
     I got. Make sure it is a field or a schema: {class_type}" *)
| UnableToUseSchema (value_passed : pyval) (class_type : option string)
  (* "Failed to serialize object. Error: {0}\n ... can serialize this
     value {1}" *)
| FailedToSerialize (err : exn) (val : pyval).

(** ** The store and the computations over it *)

Definition loc := positive.

(** A context is a Python [dict] with string keys. *)
Abbreviation ctx := (gmap string pyval).

(** The store: every location holds a dictionary, empty until written. *)
Abbreviation store := (gmap loc (gmap string pyval)).

Definition read (s : store) (l : loc) : ctx := default ∅ (s !! l).

Definition M (A : Type) : Type := store → (exn + A) * store.

Definition ret {A} (x : A) : M A := λ s, (inr x, s).

Definition raise {A} (e : exn) : M A := λ s, (inl e, s).

Definition bind {A B} (m : M A) (k : A → M B) : M B :=
  λ s, match m s with
       | (inl e, s') => (inl e, s')
       | (inr a, s') => k a s'
       end.

Notation "'let*' x ':=' m 'in' k" := (bind m (λ x, k))
  (at level 10, x pattern, m at level 100, k at level 200).

(** ** Python objects *)

(** An instance, as far as [PolyField] looks at it:
    - [inst_class] is [str(type(o))];
    - [inst_is_field] and [inst_is_schema] are [isinstance(o, Field)] and
      [isinstance(o, Schema)];
    - [inst_truthy] is [bool(o)];
    - [inst_context] is where [o.context] lives, [None] when
      [hasattr(o, 'context')] is false (a marshmallow [Field] that is not
      bound to a schema is such an object);
    - the three methods are computations; an object without the method is
      one whose computation raises [AttributeError]. *)
Record instance : Type := Instance {
  inst_class : string;
  inst_is_field : bool;
  inst_is_schema : bool;
  inst_truthy : bool;
  inst_context : option loc;
  inst_deserialize : pyval → pyval → pyval → M pyval;
  inst_load : pyval → M pyval;
  inst_dump : pyval → M pyval
}.

(** What a selector may hand back: a plain datum (also [None]), a class, or
    an instance.  Calling a class with no arguments is a computation that
    returns whatever the class builds, or raises. *)
Inductive pyobj : Type :=
| ODatum (v : pyval)
| OType (metaclass : string) (construct : M pyobj)
| OInst (i : instance).

Definition selector : Type := pyval → pyval → M pyobj.

(** [isinstance(o, type)] *)
Definition isinstance_type (o : pyobj) : bool :=
  match o with OType _ _ => true | _ => false end.

(** [isinstance(o, (Field, Schema))] *)
Definition isinstance_Field_Schema (o : pyobj) : bool :=
  match o with
  | OInst i => inst_is_field i || inst_is_schema i
  | _ => false
  end.

(** [isinstance(o, Field)] *)
Definition isinstance_Field (o : pyobj) : bool :=
  match o with OInst i => inst_is_field i | _ => false end.

(** [bool(o)] *)
Definition obj_truthy (o : pyobj) : bool :=
  match o with
  | ODatum v => truthy v
  | OType _ _ => true
  | OInst i => inst_truthy i
  end.

(** [str(type(o))] *)
Definition obj_type_name (o : pyobj) : string :=
  match o with
  | ODatum v => value_type_name v
  | OType metaclass _ => metaclass
  | OInst i => inst_class i
  end.

(** [o()] *)
Definition call_noargs (o : pyobj) : M pyobj :=
  match o with
  | OType _ construct => construct
  | _ => raise (TypeError (Plain (VStr "object is not callable")))
  end.

(** [if isinstance(o, type): o = o()] *)
Definition normalize (o : pyobj) : M pyobj :=
  if isinstance_type o then call_noargs o else ret o.

(** [a, b = v] *)
Definition unpack2 (v : pyval) : M (pyval * pyval) :=
  match py_iter v with
  | Some [a; b] => ret (a, b)
  | Some _ => raise (ValueError (Plain (VStr "wrong number of values to unpack")))
  | None => raise (TypeError (Plain (VStr "cannot unpack non-iterable object")))
  end.

(** [for v in value], as the list of the elements visited; raises
    [TypeError] where [value] is not iterable. *)
Definition iterate (v : pyval) : M (list pyval) :=
  match py_iter v with
  | Some l => ret l
  | None => raise (TypeError (Plain (VStr "object is not iterable")))
  end.

(** [d.update(other)] on the dictionary at [l]: the keys of [other]
    overwrite, the other keys of [d] stay ([∪] on [gmap] prefers its left
    argument). *)
Definition dict_update (l : loc) (other : ctx) : M unit :=
  λ s, (inr tt, <[l := other ∪ read s l]> s).

(** [v.data] *)
Definition attr_data (v : pyval) : M pyval :=
  match v with
  | VResult d _ => ret d
  | _ => raise (AttributeError (Plain (VStr "data")))
  end.

(** [value is None] *)
Definition is_None (v : pyval) : bool :=
  match v with VNone => true | _ => false end.

(** ** The class [PolyField] *)

(** The attributes [__init__] sets (lines 37-39), and [context], which the
    methods read with [getattr(self, 'context', {})]: the location of the
    field's context dictionary, or [None] where the attribute is missing.
    A selector left at its default is [None]. *)
Record PolyField : Type := {
  many : bool;
  serialization_schema_selector : option selector;
  deserialization_schema_selector : option selector;
  context : option loc
}.

(** Calling a selector attribute; calling [None] raises [TypeError]. *)
Definition call_selector (f : option selector) (v parent : pyval) : M pyobj :=
  match f with
  | Some sel => sel v parent
  | None => raise (TypeError (Plain (VStr "'NoneType' object is not callable")))
  end.

(** [getattr(self, 'context', {})]: the field's context as the store has
    it, an empty dictionary where the attribute is missing. *)
Definition field_context (self : PolyField) (s : store) : ctx :=
  match context self with Some l => read s l | None => ∅ end.

Definition getattr_context (self : PolyField) : M ctx :=
  λ s, (inr (field_context self s), s).

Section Methods.

(** The module-level flag set at import (lines 5-10): [true] where [load]
    and [dump] return the bare result, [false] where they return a
    [(data, errors)] named tuple. *)
Variable MARSHMALLOW_3 : bool.

(** *** [_deserialize] *)

(** Lines 47-53: the assignment [deserializer = None] and the body of the
    [try].  The outcome comes with the binding of the local [deserializer]
    at the point where the block is left, which the handler reads. *)
Definition select_try (self : PolyField) (v data : pyval)
  : store → (exn + unit) * pyobj * store :=
  λ s,
  let deserializer := ODatum VNone in
  match call_selector (deserialization_schema_selector self) v data s with
  | (inl e, s1) => (inl e, deserializer, s1)
  | (inr deserializer, s1) =>
    match normalize deserializer s1 with
    | (inl e, s2) => (inl e, deserializer, s2)
    | (inr deserializer, s2) =>
      if negb (isinstance_Field_Schema deserializer)
      then (inl (TypeError (Plain (VStr "Invalid deserializer type"))),
            deserializer, s2)
      else (inr tt, deserializer, s2)
    end
  end.

(** Lines 55-57: [class_type] as the handler computes it. *)
Definition class_type_of (deserializer : pyobj) : option string :=
  if obj_truthy deserializer then Some (obj_type_name deserializer) else None.

(** Lines 47-67: the [try] with its [except Exception] handler. *)
Definition select_deserializer (self : PolyField) (v data : pyval) : M pyobj :=
  λ s,
  match select_try self v data s with
  | (inl _, deserializer, s') =>
    (inl (ValidationError (UnableToUseSchema v (class_type_of deserializer))), s')
  | (inr _, deserializer, s') => (inr deserializer, s')
  end.

(** Lines 70-71: [if hasattr(deserializer, 'context'):
    deserializer.context.update(getattr(self, 'context', {}))]. *)
Definition update_context (self : PolyField) (deserializer : pyobj) : M unit :=
  match deserializer with
  | OInst i =>
    match inst_context i with
    | Some l => let* c := getattr_context self in dict_update l c
    | None => ret tt
    end
  | _ => ret tt
  end.

(** Lines 72-82: the call of the delegate; its value is the new binding of
    [data]. *)
Definition delegate (deserializer : pyobj) (v attr data : pyval) : M pyval :=
  match deserializer with
  | OInst i =>
    if inst_is_field i then inst_deserialize i v attr data
    else
      let* load_result := inst_load i v in
      if MARSHMALLOW_3 then ret load_result
      else
        let* (data, errors) := unpack2 load_result in
        if truthy errors then raise (ValidationError (Plain errors))
        else ret data
  | _ => raise (AttributeError (Plain (VStr "load")))
  end.

(** Lines 47-82: one turn of the loop, from the element [v] and the current
    binding of [data] to the value bound to [data] at line 84. *)
Definition deserialize_element (self : PolyField) (v attr data : pyval) : M pyval :=
  let* deserializer := select_deserializer self v data in
  let* _ := update_context self deserializer in
  delegate deserializer v attr data.

(** Lines 46-84: the loop.  [data] is the method's parameter, assigned anew
    in every turn (lines 73, 77, 79), and [results] grows at line 84. *)
Fixpoint deserialize_loop (self : PolyField) (attr : pyval) (vs : list pyval)
    (data : pyval) (results : list pyval) : M (list pyval) :=
  match vs with
  | [] => ret results
  | v :: vs' =>
    let* data := deserialize_element self v attr data in
    deserialize_loop self attr vs' data (results ++ [data])
  end.

(** Lines 41-90. *)
Definition _deserialize (self : PolyField) (value : pyval) (attr data : pyval) : M pyval :=
  let* value := (if negb (many self) then ret [value] else iterate value) in
  let* results := deserialize_loop self attr value data [] in
  if many self then ret (VList results)
  else
    match results with
    | r :: _ => ret r
    | [] => raise (IndexError (Plain (VStr "list index out of range")))
    end.

(** *** [_serialize] *)

(** [schema.context.update(getattr(self, 'context', {}))], lines 100 and
    111: no [hasattr] guard here, a schema without [context] raises. *)
Definition schema_context_update (self : PolyField) (schema : pyobj) : M unit :=
  match schema with
  | OInst {| inst_context := Some l |} =>
    let* c := getattr_context self in dict_update l c
  | _ => raise (AttributeError (Plain (VStr "context")))
  end.

(** [schema.dump(v)] *)
Definition call_dump (schema : pyobj) (v : pyval) : M pyval :=
  match schema with
  | OInst i => inst_dump i v
  | _ => raise (AttributeError (Plain (VStr "dump")))
  end.

(** Lines 102-107 and 112-116: [dump], and [.data] of what it returns under
    marshmallow 2. *)
Definition render (schema : pyobj) (v : pyval) : M pyval :=
  let* dump_result := call_dump schema v in
  if MARSHMALLOW_3 then ret dump_result else attr_data dump_result.

(** Lines 99-107 and, with the same text, lines 110-116: the value rendered
    for one element. *)
Definition serialize_element (self : PolyField) (v obj : pyval) : M pyval :=
  let* schema := call_selector (serialization_schema_selector self) v obj in
  let* _ := schema_context_update self schema in
  render schema v.

(** Lines 98-107. *)
Fixpoint serialize_loop (self : PolyField) (obj : pyval) (vs : list pyval)
    (res : list pyval) : M (list pyval) :=
  match vs with
  | [] => ret res
  | v :: vs' =>
    let* r := serialize_element self v obj in
    serialize_loop self obj vs' (res ++ [r])
  end.

(** Lines 96-116: the body of the [try]. *)
Definition serialize_try (self : PolyField) (value : pyval) (obj : pyval) : M pyval :=
  if many self then
    let* vs := iterate value in
    let* res := serialize_loop self obj vs [] in
    ret (VList res)
  else serialize_element self value obj.

(** Lines 92-122. *)
Definition _serialize (self : PolyField) (value : pyval) (key obj : pyval) : M pyval :=
  if is_None value then ret VNone
  else
    λ s,
    match serialize_try self value obj s with
    | (inl err, s') => (inl (TypeError (FailedToSerialize err value)), s')
    | (inr r, s') => (inr r, s')
    end.

End Methods.

(** *** [__init__] *)

(** Lines 20-39: the constructor keeps its three arguments; left out, a
    selector is [None] and [many] is [False].  The keyword arguments go to
    [Field.__init__], which binds the field to no schema: a field fresh from
    the constructor has no [context]. *)
Definition __init__ (serialization_schema_selector deserialization_schema_selector
    : option selector) (many : bool) : PolyField :=
  {| many := many;
     serialization_schema_selector := serialization_schema_selector;
     deserialization_schema_selector := deserialization_schema_selector;
     context := None |}.

(** ** Runs of the two loops *)

(** Both loops visit the elements in order, thread a value [d] from one
    turn to the next and append one output per turn.  [run step next] is
    the trace of such a loop while every turn succeeds:
    [run step next d s vs os d' s'] says that from [d] and the store [s]
    the elements [vs] yield the outputs [os], ending in [d'] and [s']. *)
Section Run.

Context {D : Type}.
Variable step : pyval → D → M pyval.
Variable next : D → pyval → D.

Inductive run : D → store → list pyval → list pyval → D → store → Prop :=
| run_nil d s : run d s [] [] d s
| run_cons d s v vs o os d' s1 s' :
    step v d s = (inr o, s1) →
    run (next d o) s1 vs os d' s' →
    run d s (v :: vs) (o :: os) d' s'.

Fixpoint loop (vs : list pyval) (d : D) (acc : list pyval) : M (list pyval) :=
  match vs with
  | [] => ret acc
  | v :: vs' => let* o := step v d in loop vs' (next d o) (acc ++ [o])
  end.

End Run.

(** In [_deserialize] the value threaded is [data], replaced by each output;
    in [_serialize] nothing is threaded. *)
Definition deserialize_run (MARSHMALLOW_3 : bool) (self : PolyField) (attr : pyval) :=
  run (λ v data, deserialize_element MARSHMALLOW_3 self v attr data) (λ _ o, o).

Definition serialize_run (MARSHMALLOW_3 : bool) (self : PolyField) (obj : pyval)
    (s : store) (vs os : list pyval) (s' : store) : Prop :=
  run (λ v (_ : unit), serialize_element MARSHMALLOW_3 self v obj) (λ u _, u)
      tt s vs os tt s'.

(** The elements a call works through: line 43 and the [for] of line 46 in
    [_deserialize], lines 98 and 110 in [_serialize]. *)
Definition elements (self : PolyField) (value : pyval) : option (list pyval) :=
  if many self then py_iter value else Some [value].

(** The dictionary at [l] in [s2] is the one in [s1] updated with the field's
    context: the field's keys are there with the field's values, every other
    key is as it was, and no other dictionary changed. *)
Definition merged_into (self : PolyField) (l : loc) (s1 s2 : store) : Prop :=
  (∀ k x, field_context self s1 !! k = Some x → read s2 l !! k = Some x)
  ∧ (∀ k, field_context self s1 !! k = None → read s2 l !! k = read s1 l !! k)
  ∧ (∀ l', l' ≠ l → read s2 l' = read s1 l').

(** What a schema's [load] does when it reports [errors]: it raises under
    marshmallow 3, and returns them beside the data under marshmallow 2. *)
Definition load_reports (MARSHMALLOW_3 : bool) (out : (exn + pyval) * store)
    (errors : pyval) (s' : store) : Prop :=
  if MARSHMALLOW_3 then out = (inl (ValidationError (Plain errors)), s')
  else ∃ d, out = (inr (VResult d errors), s') ∧ truthy errors = true.

(** What a schema's [load] does when it accepts the input and yields
    [result]. *)
Definition load_accepts (MARSHMALLOW_3 : bool) (load_result result : pyval) : Prop :=
  if MARSHMALLOW_3 then load_result = result
  else ∃ errors, load_result = VResult result errors ∧ truthy errors = false.

(** ** A field over shapes *)

(** The setting the package is made for: a field whose values are circles
    or squares, each with a schema of its own, chosen from the [type] key
    when loading and from the class of the object when dumping. *)
Module Shapes.

Definition assoc (k : string) (kv : list (string * pyval)) : option pyval :=
  match List.find (λ p, String.eqb (fst p) k) kv with
  | Some p => Some (snd p)
  | None => None
  end.

(** How a schema hands out the outcome of [load] under either convention. *)
Definition unmarshal (mm3 : bool) (data errors : pyval) : M pyval :=
  if mm3 then
    if truthy errors then raise (ValidationError (Plain errors)) else ret data
  else ret (VResult data errors).

Definition marshal (mm3 : bool) (data : pyval) : M pyval :=
  ret (if mm3 then data else VResult data (VDict [])).

Definition missing (key : string) : pyval :=
  VDict [(key, VList [VStr "Missing data for required field."])].

(** A schema with one required key, building an object of class [cls].
    The object records under [owner] the [user] the schema's context holds
    when [load] runs. *)
Definition shape_schema (mm3 : bool) (cls key : string) (l : loc) : instance :=
  {| inst_class := cls +:+ "Schema";
     inst_is_field := false;
     inst_is_schema := true;
     inst_truthy := true;
     inst_context := Some l;
     inst_deserialize := λ _ _ _, raise (AttributeError (Plain (VStr "deserialize")));
     inst_load := λ v s,
       match v with
       | VDict kv =>
         match assoc key kv with
         | Some x =>
           unmarshal mm3
             (VObject cls [(key, x); ("owner", default VNone (read s l !! "user"))])
             (VDict []) s
         | None => unmarshal mm3 (VDict []) (missing key) s
         end
       | _ =>
         unmarshal mm3 (VDict [])
           (VDict [("_schema", VList [VStr "Invalid input type."])]) s
       end;
     inst_dump := λ v,
       match v with
       | VObject _ attrs =>
         match assoc key attrs with
         | Some x => marshal mm3 (VDict [(key, x)])
         | None => raise (AttributeError (Plain (VStr key)))
         end
       | _ => raise (AttributeError (Plain (VStr key)))
       end |}.

Definition circle_schema (mm3 : bool) : instance := shape_schema mm3 "Circle" "radius" 1%positive.
Definition square_schema (mm3 : bool) : instance := shape_schema mm3 "Square" "side" 2%positive.

Definition shape_deserialization_selector (mm3 : bool) : selector :=
  λ v _,
  match v with
  | VDict kv =>
    match assoc "type" kv with
    | Some (VStr "circle") => ret (OInst (circle_schema mm3))
    | Some (VStr "square") => ret (OInst (square_schema mm3))
    | _ => raise (TypeError (Plain (VStr "Unknown shape")))
    end
  | _ => raise (TypeError (Plain (VStr "Unknown shape")))
  end.

Definition shape_serialization_selector (mm3 : bool) : selector :=
  λ v _,
  match v with
  | VObject "Circle" _ => ret (OInst (circle_schema mm3))
  | VObject "Square" _ => ret (OInst (square_schema mm3))
  | _ => raise (TypeError (Plain (VStr "Unknown shape")))
  end.

Definition shape_field (mm3 many : bool) : PolyField :=
  {| many := many;
     serialization_schema_selector := Some (shape_serialization_selector mm3);
     deserialization_schema_selector := Some (shape_deserialization_selector mm3);
     context := Some 3%positive |}.

(** The field's context names the user; the circle schema comes with a
    context of its own. *)
Definition store0 : store :=
  {[ 3%positive := {[ "user" := VStr "alice" ]};
     1%positive := {[ "user" := VStr "nobody"; "strict" := VBool true ]} ]}.

Definition circle (r : Z) : pyval :=
  VDict [("type", VStr "circle"); ("radius", VInt r)].
Definition square (a : Z) : pyval :=
  VDict [("type", VStr "square"); ("side", VInt a)].
Definition triangle : pyval := VDict [("type", VStr "triangle")].

Definition parent : pyval := VDict [("name", VStr "drawing")].
Definition attr : pyval := VStr "shapes".

End Shapes.

(** ** Selectors that misbehave *)

Module Probes.

Import Shapes.

(** A field that is bound to no schema, and so has no [context].  Its
    [deserialize] returns what it was called with, after the parent its
    selector was given. *)
Definition echo (seen : pyval) : instance :=
  {| inst_class := "Echo";
     inst_is_field := true;
     inst_is_schema := false;
     inst_truthy := true;
     inst_context := None;
     inst_deserialize := λ v _ data, ret (VList [v; seen; data]);
     inst_load := λ _, raise (AttributeError (Plain (VStr "load")));
     inst_dump := λ _, raise (AttributeError (Plain (VStr "dump"))) |}.

Definition echo_selector : selector := λ _ parent, ret (OInst (echo parent)).

Definition echo_field (many : bool) : PolyField :=
  {| many := many;
     serialization_schema_selector := None;
     deserialization_schema_selector := Some echo_selector;
     context := Some 3%positive |}.

(** The class [SquareSchema], and a schema class that cannot be built
    without arguments. *)
Definition SquareSchema (mm3 : bool) : pyobj :=
  OType "SchemaMeta" (ret (OInst (square_schema mm3))).

Definition PointSchema : pyobj :=
  OType "SchemaMeta"
    (raise (TypeError (Plain (VStr "__init__() missing 1 required positional argument")))).

(** A selector that answers with an instance for circles, a class for
    squares and points, the name of a schema for lines and an empty
    dictionary for blobs. *)
Definition sloppy_selector (mm3 : bool) : selector :=
  λ v _,
  match v with
  | VDict kv =>
    match assoc "type" kv with
    | Some (VStr "circle") => ret (OInst (circle_schema mm3))
    | Some (VStr "square") => ret (SquareSchema mm3)
    | Some (VStr "point") => ret PointSchema
    | Some (VStr "line") => ret (ODatum (VStr "LineSchema"))
    | Some (VStr "blob") => ret (ODatum (VDict []))
    | _ => raise (OtherException "KeyError" (Plain (VStr "type")))
    end
  | _ => raise (OtherException "KeyError" (Plain (VStr "type")))
  end.

Definition sloppy_field (mm3 many : bool) : PolyField :=
  {| many := many;
     serialization_schema_selector := None;
     deserialization_schema_selector := Some (sloppy_selector mm3);
     context := Some 3%positive |}.

Definition shape (kind : string) : pyval := VDict [("type", VStr kind)].

End Probes.

(** ** A schema that is not strict *)

Module Lax.

Import Shapes.

(** A marshmallow 2 schema whose [dump] reports errors beside the data
    instead of raising. *)
Definition lax_schema : instance :=
  {| inst_class := "LaxSchema";
     inst_is_field := false;
     inst_is_schema := true;
     inst_truthy := true;
     inst_context := Some 1%positive;
     inst_deserialize := λ _ _ _, raise (AttributeError (Plain (VStr "deserialize")));
     inst_load := λ v, ret (VResult v (VDict []));
     inst_dump := λ _, ret (VResult (VDict []) (missing "radius")) |}.

Definition lax_field : PolyField :=
  {| many := false;
     serialization_schema_selector := Some (λ _ _, ret (OInst lax_schema));
     deserialization_schema_selector := Some (λ _ _, ret (OInst lax_schema));
     context := Some 3%positive |}.

(** A field whose serialization selector answers with the class. *)
Definition class_field (mm3 : bool) : PolyField :=
  {| many := false;
     serialization_schema_selector := Some (λ _ _, ret (Probes.SquareSchema mm3));
     deserialization_schema_selector := Some (λ _ _, ret (Probes.SquareSchema mm3));
     context := Some 3%positive |}.

End Lax.

(** * Properties *)

(** ** Facts about runs *)

Section Run_facts.

Context {D : Type}.
Variable step : pyval → D → M pyval.
Variable next : D → pyval → D.

Lemma run_length d s vs os d' s' :
  run step next d s vs os d' s' → length os = length vs.
Proof. induction 1; simpl; congruence. Qed.

(** The element at index [i] is handled in the state the first [i] elements
    leave behind, and its output sits at index [i]. *)
Lemma run_lookup d s vs os d' s' i v :
  run step next d s vs os d' s' →
  vs !! i = Some v →
  ∃ o di si si',
    run step next d s (take i vs) (take i os) di si
    ∧ step v di si = (inr o, si')
    ∧ os !! i = Some o.
Proof.
  intros Hrun. revert i.
  induction Hrun as [d s | d s w vs o os d' s1 s' Hstep Hrun IH]; intros i Hi.
  - destruct i; discriminate.
  - destruct i as [|i]; simpl in *.
    + injection Hi as ->. exists o, d, s, s1. split; [constructor | done].
    + destruct (IH i Hi) as (o' & di & si & si' & Hpre & Hel & Ho).
      exists o', di, si, si'. split; [econstructor; eauto | done].
Qed.

Lemma loop_inr vs d acc s out s' :
  loop step next vs d acc s = (inr out, s') →
  ∃ os d', out = acc ++ os ∧ run step next d s vs os d' s'.
Proof.
  revert d acc s. induction vs as [|v vs IH]; intros d acc s; simpl.
  - intros [= <- <-]. exists [], d. rewrite app_nil_r. split; [done | constructor].
  - unfold bind at 1. destruct (step v d s) as [[e|o] s1] eqn:Hstep; [done|].
    intros Hloop. destruct (IH _ _ _ Hloop) as (os & d' & -> & Hrun).
    exists (o :: os), d'. rewrite <- app_assoc. split; [done | econstructor; eauto].
Qed.

Lemma run_loop vs d acc s os d' s' :
  run step next d s vs os d' s' →
  loop step next vs d acc s = (inr (acc ++ os), s').
Proof.
  intros Hrun. revert acc.
  induction Hrun as [d s | d s v vs o os d' s1 s' Hstep Hrun IH]; intros acc; simpl.
  - by rewrite app_nil_r.
  - unfold bind at 1. rewrite Hstep, IH, <- app_assoc. done.
Qed.

(** The first element that fails ends the loop with its exception. *)
Lemma loop_inl pre v post d acc s os d1 s1 e s2 :
  run step next d s pre os d1 s1 →
  step v d1 s1 = (inl e, s2) →
  loop step next (pre ++ v :: post) d acc s = (inl e, s2).
Proof.
  intros Hrun. revert acc.
  induction Hrun as [d s | d s w vs o os d' s1 s' Hstep Hrun IH];
    intros acc Hv; simpl; unfold bind at 1.
  - by rewrite Hv.
  - rewrite Hstep. by apply IH.
Qed.

(** Conversely an exception of the loop is the exception of one element,
    raised after the elements before it went through. *)
Lemma loop_inl_inv vs d acc s e s2 :
  loop step next vs d acc s = (inl e, s2) →
  ∃ pre v post os d1 s1,
    vs = pre ++ v :: post
    ∧ run step next d s pre os d1 s1
    ∧ step v d1 s1 = (inl e, s2).
Proof.
  revert d acc s. induction vs as [|v vs IH]; intros d acc s; simpl; [done|].
  unfold bind at 1. destruct (step v d s) as [[e'|o] s1] eqn:Hstep.
  - intros [= -> ->]. exists [], v, vs, [], d, s. split_and!; [done | constructor | done].
  - intros Hloop.
    destruct (IH _ _ _ Hloop) as (pre & w & post & os & d1 & s1' & -> & Hrun & Hw).
    exists (v :: pre), w, post, (o :: os), d1, s1'.
    split_and!; [done | econstructor; eauto | done].
Qed.

End Run_facts.

(** ** The loops of the source are such loops *)

Section Facts.

Variable MARSHMALLOW_3 : bool.

Lemma deserialize_loop_loop self attr vs data results s :
  deserialize_loop MARSHMALLOW_3 self attr vs data results s =
  loop (λ v data, deserialize_element MARSHMALLOW_3 self v attr data) (λ _ o, o)
       vs data results s.
Proof.
  revert data results s.
  induction vs as [|v vs IH]; intros data results s; simpl; [done|].
  unfold bind.
  destruct (deserialize_element _ _ _ _ _ s) as [[e|o] s1]; [done | apply IH].
Qed.

Lemma serialize_loop_loop self obj vs res s :
  serialize_loop MARSHMALLOW_3 self obj vs res s =
  loop (λ v (_ : unit), serialize_element MARSHMALLOW_3 self v obj) (λ u _, u)
       vs tt res s.
Proof.
  revert res s. induction vs as [|v vs IH]; intros res s; simpl; [done|].
  unfold bind.
  destruct (serialize_element _ _ _ _ s) as [[e|o] s1]; [done | apply IH].
Qed.

(** *** Selection *)

Lemma select_deserializer_valid self sel v data s o s1 o' s2 :
  deserialization_schema_selector self = Some sel →
  sel v data s = (inr o, s1) →
  normalize o s1 = (inr o', s2) →
  isinstance_Field_Schema o' = true →
  select_deserializer self v data s = (inr o', s2).
Proof.
  intros Hsel Hcall Hnorm Hok. unfold select_deserializer, select_try, call_selector.
  by rewrite Hsel, Hcall, Hnorm, Hok.
Qed.

Lemma select_deserializer_invalid self sel v data s o s1 o' s2 :
  deserialization_schema_selector self = Some sel →
  sel v data s = (inr o, s1) →
  normalize o s1 = (inr o', s2) →
  isinstance_Field_Schema o' = false →
  select_deserializer self v data s =
    (inl (ValidationError (UnableToUseSchema v (class_type_of o'))), s2).
Proof.
  intros Hsel Hcall Hnorm Hbad. unfold select_deserializer, select_try, call_selector.
  by rewrite Hsel, Hcall, Hnorm, Hbad.
Qed.

Lemma select_deserializer_unbuilt self sel v data s o s1 e s2 :
  deserialization_schema_selector self = Some sel →
  sel v data s = (inr o, s1) →
  normalize o s1 = (inl e, s2) →
  select_deserializer self v data s =
    (inl (ValidationError (UnableToUseSchema v (class_type_of o))), s2).
Proof.
  intros Hsel Hcall Hnorm. unfold select_deserializer, select_try, call_selector.
  by rewrite Hsel, Hcall, Hnorm.
Qed.

Lemma select_deserializer_raised self v data s e s1 :
  call_selector (deserialization_schema_selector self) v data s = (inl e, s1) →
  select_deserializer self v data s =
    (inl (ValidationError (UnableToUseSchema v None)), s1).
Proof.
  intros Hcall. unfold select_deserializer, select_try. by rewrite Hcall.
Qed.

(** What selection returns is an instance of [Field] or of [Schema]. *)
Lemma select_deserializer_inr self v data s o s' :
  select_deserializer self v data s = (inr o, s') →
  ∃ i, o = OInst i ∧ inst_is_field i || inst_is_schema i = true.
Proof.
  unfold select_deserializer, select_try.
  destruct (call_selector _ v data s) as [[e|d] s1]; [done|].
  destruct (normalize d s1) as [[e|d'] s2]; [done|].
  destruct (isinstance_Field_Schema d') eqn:Hok; simpl; [|done].
  intros [= <- <-]. destruct d' as [x|m c|i]; try done. by exists i.
Qed.

(** Whatever goes wrong in selection, the exception names the element. *)
Lemma select_deserializer_inl self v data s e s' :
  select_deserializer self v data s = (inl e, s') →
  ∃ class_type, e = ValidationError (UnableToUseSchema v class_type).
Proof.
  unfold select_deserializer.
  destruct (select_try self v data s) as [[[e'|[]] d] s1]; [|done].
  intros [= <- <-]. eauto.
Qed.

(** *** The context update *)

Lemma dict_update_merged self l s :
  merged_into self l s (<[l := field_context self s ∪ read s l]> s).
Proof.
  unfold merged_into, read. split_and!.
  - intros k x Hk. rewrite lookup_insert_eq. simpl. by apply lookup_union_Some_l.
  - intros k Hk. rewrite lookup_insert_eq. simpl. by apply lookup_union_r.
  - intros l' Hl'. by rewrite lookup_insert_ne.
Qed.

Lemma update_context_bound self i l s :
  inst_context i = Some l →
  update_context self (OInst i) s =
    (inr tt, <[l := field_context self s ∪ read s l]> s).
Proof. intros Hl. unfold update_context. by rewrite Hl. Qed.

Lemma schema_context_update_bound self i l s :
  inst_context i = Some l →
  schema_context_update self (OInst i) s =
    (inr tt, <[l := field_context self s ∪ read s l]> s).
Proof. intros Hl. destruct i. simpl in *. by subst. Qed.

Lemma schema_context_update_unbound self schema s :
  match schema with OInst i => inst_context i | _ => None end = None →
  schema_context_update self schema s =
    (inl (AttributeError (Plain (VStr "context"))), s).
Proof. destruct schema as [x|m c|[]]; simpl; try done. by intros ->. Qed.

(** *** Whole calls *)

Lemma _deserialize_elements self value attr data s vs :
  elements self value = Some vs →
  _deserialize MARSHMALLOW_3 self value attr data s =
  match loop (λ v data, deserialize_element MARSHMALLOW_3 self v attr data)
             (λ _ o, o) vs data [] s with
  | (inl e, s') => (inl e, s')
  | (inr results, s') =>
    if many self then (inr (VList results), s')
    else match results with
         | r :: _ => (inr r, s')
         | [] => (inl (IndexError (Plain (VStr "list index out of range"))), s')
         end
  end.
Proof.
  unfold elements, _deserialize, iterate. intros Hvs.
  destruct (many self); simpl.
  - rewrite Hvs. unfold bind at 1. simpl. unfold bind at 1.
    rewrite deserialize_loop_loop. by destruct (loop _ _ _ _ _ _) as [[e|r] s1].
  - injection Hvs as <-. unfold bind at 1. simpl. unfold bind.
    by destruct (deserialize_element _ _ _ _ _ s) as [[e|o] s1].
Qed.

(** No partial result: the first failing element fails the call. *)
Lemma _deserialize_inl self value attr data s pre v post os d1 s1 e s2 :
  elements self value = Some (pre ++ v :: post) →
  deserialize_run MARSHMALLOW_3 self attr data s pre os d1 s1 →
  deserialize_element MARSHMALLOW_3 self v attr d1 s1 = (inl e, s2) →
  _deserialize MARSHMALLOW_3 self value attr data s = (inl e, s2).
Proof.
  intros Hvs Hrun Hel. rewrite (_deserialize_elements _ _ _ _ _ _ Hvs).
  by rewrite (loop_inl _ _ _ _ _ _ _ _ _ _ _ _ _ Hrun Hel).
Qed.

(** With [many] false the call is one turn of the loop on the value. *)
Lemma _deserialize_single self value attr data s :
  many self = false →
  _deserialize MARSHMALLOW_3 self value attr data s =
  deserialize_element MARSHMALLOW_3 self value attr data s.
Proof.
  intros Hmany.
  rewrite (_deserialize_elements self value attr data s [value])
    by (unfold elements; by rewrite Hmany).
  simpl. unfold bind at 1. rewrite Hmany.
  by destruct (deserialize_element _ _ _ _ _ s) as [[e|o] s1].
Qed.

Lemma _serialize_try self value key obj s :
  is_None value = false →
  _serialize MARSHMALLOW_3 self value key obj s =
  match serialize_try MARSHMALLOW_3 self value obj s with
  | (inl err, s') => (inl (TypeError (FailedToSerialize err value)), s')
  | (inr r, s') => (inr r, s')
  end.
Proof. intros Hv. unfold _serialize. by rewrite Hv. Qed.

Lemma serialize_try_elements self value obj s vs :
  elements self value = Some vs →
  serialize_try MARSHMALLOW_3 self value obj s =
  match loop (λ v (_ : unit), serialize_element MARSHMALLOW_3 self v obj)
             (λ u _, u) vs tt [] s with
  | (inl e, s') => (inl e, s')
  | (inr res, s') =>
    if many self then (inr (VList res), s')
    else match res with
         | r :: _ => (inr r, s')
         | [] => (inl (IndexError (Plain (VStr "list index out of range"))), s')
         end
  end.
Proof.
  unfold elements, serialize_try, iterate. intros Hvs.
  destruct (many self); simpl.
  - rewrite Hvs. unfold bind at 1. simpl. unfold bind at 1.
    rewrite serialize_loop_loop. by destruct (loop _ _ _ _ _ _) as [[e|r] s1].
  - injection Hvs as <-. simpl. unfold bind at 1.
    by destruct (serialize_element _ _ _ _ s) as [[e|o] s1].
Qed.

End Facts.

(** ** The claims *)

Import Shapes Probes.

(** C9.  For the value [None], [_serialize] returns [None] at once: whatever
    the field, its [many] flag and its serialization selector are (also a
    selector that raises, or one that writes to the store), the result is
    [None] and the store is the one the call started in, so no selector was
    called, no context merged and nothing dumped. *)
Theorem C9_serialize_None_short_circuits
    (MARSHMALLOW_3 : bool) (self : PolyField) (key obj : pyval) (s : store) :
  _serialize MARSHMALLOW_3 self VNone key obj s = (inr VNone, s).
Proof. reflexivity. Qed.

(** C10.  [_deserialize] has no such short circuit.  With [many] false a
    [None] input is put in a one-element list and handled like any other
    element, its first step being the call of the selector on [None]; when
    that call raises, the outcome is the validation error of a failed
    selection, not [None]. *)
Theorem C10_deserialize_None_is_dispatched
    (MARSHMALLOW_3 : bool) (self : PolyField) (attr data : pyval) (s : store) :
  many self = false →
  _deserialize MARSHMALLOW_3 self VNone attr data s =
    deserialize_element MARSHMALLOW_3 self VNone attr data s
  ∧ ∀ e s1,
      call_selector (deserialization_schema_selector self) VNone data s = (inl e, s1) →
      _deserialize MARSHMALLOW_3 self VNone attr data s =
        (inl (ValidationError (UnableToUseSchema VNone None)), s1).
Proof.
  intros Hmany. split; [by apply _deserialize_single|].
  intros e s1 Hcall. rewrite _deserialize_single by done.
  unfold deserialize_element, bind.
  by rewrite (select_deserializer_raised _ _ _ _ _ _ Hcall).
Qed.

Lemma C10_witness :
  _deserialize true (shape_field true false) VNone attr parent store0 =
    (inl (ValidationError (UnableToUseSchema VNone None)), store0).
Proof.
  apply (proj2 (C10_deserialize_None_is_dispatched true (shape_field true false)
                  attr parent store0 eq_refl)
               (TypeError (Plain (VStr "Unknown shape"))) store0).
  reflexivity.
Defined.

(** C2.  With [many] false, when the selector returns a schema instance
    (or a schema class, which is then built) and that schema's [load], run
    after the context update, accepts [v] with [result], then
    [_deserialize] returns [result]: the value of [load] itself under
    marshmallow 3, the [data] half of the pair it returns under
    marshmallow 2. *)
Theorem C2_single_value_is_schema_load
    (MARSHMALLOW_3 : bool) (self : PolyField) (sel : selector)
    (v attr data : pyval) (s : store) (o : pyobj) (s0 : store)
    (i : instance) (s1 s2 : store) (load_result result : pyval) (s3 : store) :
  many self = false →
  deserialization_schema_selector self = Some sel →
  sel v data s = (inr o, s0) →
  normalize o s0 = (inr (OInst i), s1) →
  inst_is_field i = false →
  inst_is_schema i = true →
  update_context self (OInst i) s1 = (inr tt, s2) →
  inst_load i v s2 = (inr load_result, s3) →
  load_accepts MARSHMALLOW_3 load_result result →
  _deserialize MARSHMALLOW_3 self v attr data s = (inr result, s3).
Proof.
  intros Hmany Hsel Hcall Hnorm Hfield Hschema Hctx Hload Hacc.
  rewrite _deserialize_single by done.
  unfold deserialize_element, bind.
  rewrite (select_deserializer_valid _ _ _ _ _ _ _ _ _ Hsel Hcall Hnorm)
    by (simpl; by rewrite Hfield, Hschema).
  rewrite Hctx. simpl. rewrite Hfield. unfold bind. rewrite Hload.
  unfold load_accepts in Hacc. destruct MARSHMALLOW_3.
  - by subst.
  - destruct Hacc as (errors & -> & Herr). simpl. by rewrite Herr.
Qed.

Lemma C2_witness :
  _deserialize false (shape_field false false) (circle 3) attr parent store0 =
    (inr (VObject "Circle" [("radius", VInt 3); ("owner", VStr "alice")]),
     <[1%positive := {[ "user" := VStr "alice"; "strict" := VBool true ]}]> store0).
Proof.
  apply (C2_single_value_is_schema_load false (shape_field false false)
           (shape_deserialization_selector false) (circle 3) attr parent store0
           (OInst (circle_schema false)) store0 (circle_schema false) store0
           (<[1%positive := {[ "user" := VStr "alice"; "strict" := VBool true ]}]> store0)
           (VResult (VObject "Circle" [("radius", VInt 3); ("owner", VStr "alice")])
                    (VDict []))).
  - reflexivity.
  - reflexivity.
  - reflexivity.
  - reflexivity.
  - reflexivity.
  - reflexivity.
  - vm_compute. reflexivity.
  - vm_compute. reflexivity.
  - exists (VDict []). split; reflexivity.
Defined.

(** C1 (not what the code does).  The loop assigns each element's result to
    [data], the very parameter that holds the enclosing data, so from the
    second element on the selector and the delegate are called with the
    result of the element before.  Here every delegate answers with the
    list of its own element, the parent its selector was given and the
    [data] it was called with: for the second element both are the first
    element's result, not [parent]. *)
Theorem C1_later_elements_get_earlier_result (MARSHMALLOW_3 : bool) :
  _deserialize MARSHMALLOW_3 (echo_field true) (VList [VInt 1; VInt 2])
    attr parent store0 =
  (inr (VList [VList [VInt 1; parent; parent];
               VList [VInt 2; VList [VInt 1; parent; parent];
                              VList [VInt 1; parent; parent]]]),
   store0).
Proof. destruct MARSHMALLOW_3; reflexivity. Qed.

(** C3.  With [many] true and an input that iterates as [vs], a call that
    succeeds returns a list as long as [vs]; and the element at index [i]
    was handled, in the state the [i] elements before it left behind, with
    the very output that sits at index [i] of the result.  This holds for
    [_deserialize] and for [_serialize]. *)
Theorem C3_many_preserves_length_and_order
    (MARSHMALLOW_3 : bool) (self : PolyField) (value : pyval) (vs : list pyval) :
  many self = true →
  py_iter value = Some vs →
  (∀ attr data s r s',
     _deserialize MARSHMALLOW_3 self value attr data s = (inr r, s') →
     ∃ os, r = VList os ∧ length os = length vs
       ∧ ∀ i v, vs !! i = Some v →
           ∃ o di si si',
             deserialize_run MARSHMALLOW_3 self attr data s (take i vs) (take i os) di si
             ∧ deserialize_element MARSHMALLOW_3 self v attr di si = (inr o, si')
             ∧ os !! i = Some o)
  ∧ (∀ key obj s r s',
     _serialize MARSHMALLOW_3 self value key obj s = (inr r, s') →
     ∃ os, r = VList os ∧ length os = length vs
       ∧ ∀ i v, vs !! i = Some v →
           ∃ o si si',
             serialize_run MARSHMALLOW_3 self obj s (take i vs) (take i os) si
             ∧ serialize_element MARSHMALLOW_3 self v obj si = (inr o, si')
             ∧ os !! i = Some o).
Proof.
  intros Hmany Hvs.
  assert (elements self value = Some vs) as Hel
    by (unfold elements; by rewrite Hmany).
  split.
  - intros attr data s r s'.
    rewrite (_deserialize_elements _ _ _ _ _ _ _ Hel), Hmany.
    destruct (loop _ _ vs data [] s) as [[e|out] s1] eqn:Hloop; [done|].
    intros [= <- <-].
    destruct (loop_inr _ _ _ _ _ _ _ _ Hloop) as (os & d' & -> & Hrun).
    exists os. split_and!; [done | by eapply run_length |].
    intros i v Hi.
    destruct (run_lookup _ _ _ _ _ _ _ _ _ _ Hrun Hi)
      as (o & di & si & si' & Hpre & Hstep & Ho).
    by exists o, di, si, si'.
  - intros key obj s r s'.
    rewrite _serialize_try by (by destruct value).
    rewrite (serialize_try_elements _ _ _ _ _ _ Hel), Hmany.
    destruct (loop _ _ vs tt [] s) as [[e|out] s1] eqn:Hloop; [done|].
    intros [= <- <-].
    destruct (loop_inr _ _ _ _ _ _ _ _ Hloop) as (os & [] & -> & Hrun).
    exists os. split_and!; [done | by eapply run_length |].
    intros i v Hi.
    destruct (run_lookup _ _ _ _ _ _ _ _ _ _ Hrun Hi)
      as (o & [] & si & si' & Hpre & Hstep & Ho).
    by exists o, si, si'.
Qed.

Lemma C3_witness :
  (∃ os, fst (_deserialize false (shape_field false true)
                (VList [circle 3; square 2]) attr parent store0) = inr (VList os)
         ∧ length os = 2%nat)
  ∧ (∃ os, fst (_serialize false (shape_field false true)
                  (VList [VObject "Square" [("side", VInt 2)];
                          VObject "Circle" [("radius", VInt 3)]])
                  attr parent store0) = inr (VList os)
           ∧ length os = 2%nat).
Proof.
  split.
  - destruct (C3_many_preserves_length_and_order false (shape_field false true)
                (VList [circle 3; square 2]) [circle 3; square 2]
                eq_refl eq_refl) as [Hd _].
    destruct (Hd attr parent store0
                (VList [VObject "Circle" [("radius", VInt 3); ("owner", VStr "alice")];
                        VObject "Square" [("side", VInt 2); ("owner", VStr "alice")]])
                (snd (_deserialize false (shape_field false true)
                        (VList [circle 3; square 2]) attr parent store0)))
      as (os & Hr & Hlen & _).
    + vm_compute. reflexivity.
    + exists os. split; [|exact Hlen]. rewrite <- Hr. vm_compute. reflexivity.
  - destruct (C3_many_preserves_length_and_order false (shape_field false true)
                (VList [VObject "Square" [("side", VInt 2)];
                        VObject "Circle" [("radius", VInt 3)]])
                [VObject "Square" [("side", VInt 2)];
                 VObject "Circle" [("radius", VInt 3)]]
                eq_refl eq_refl) as [_ Hs].
    destruct (Hs attr parent store0
                (VList [VDict [("side", VInt 2)]; VDict [("radius", VInt 3)]])
                (snd (_serialize false (shape_field false true)
                        (VList [VObject "Square" [("side", VInt 2)];
                                VObject "Circle" [("radius", VInt 3)]])
                        attr parent store0)))
      as (os & Hr & Hlen & _).
    + vm_compute. reflexivity.
    + exists os. split; [|exact Hlen]. rewrite <- Hr. vm_compute. reflexivity.
Defined.

(** C4 (not what the code does).  The handler reports the class only of a
    [deserializer] that is true in a boolean context.  A selector that
    answers with an empty dictionary has produced an object of class
    [dict], and the message says [None]. *)
Theorem C4_falsy_delegate_reported_as_None (MARSHMALLOW_3 : bool) :
  sloppy_selector MARSHMALLOW_3 (shape "blob") parent store0 =
    (inr (ODatum (VDict [])), store0)
  ∧ obj_type_name (ODatum (VDict [])) = "dict"
  ∧ _deserialize MARSHMALLOW_3 (sloppy_field MARSHMALLOW_3 false) (shape "blob")
      attr parent store0 =
    (inl (ValidationError (UnableToUseSchema (shape "blob") None)), store0).
Proof. destruct MARSHMALLOW_3; split_and!; reflexivity. Qed.

(** C5.  Take an element [v] reached after the elements before it went
    through, and let the selector return [o] for it.  Then [o] is
    normalized by calling it with no arguments when it is a class and by
    taking it as it is otherwise; a normalized delegate that is an instance
    of [Field] or [Schema] is the one selected; and when the normalized
    delegate is neither, or the class cannot be built, the whole call
    raises the validation error that names [v]: no result is returned. *)
Theorem C5_invalid_delegate_is_refused
    (MARSHMALLOW_3 : bool) (self : PolyField) (sel : selector)
    (value attr data : pyval) (s : store) (pre : list pyval) (v : pyval)
    (post os : list pyval) (d1 : pyval) (s1 : store) (o : pyobj) (s2 : store) :
  deserialization_schema_selector self = Some sel →
  elements self value = Some (pre ++ v :: post) →
  deserialize_run MARSHMALLOW_3 self attr data s pre os d1 s1 →
  sel v d1 s1 = (inr o, s2) →
  normalize o s2 =
    match o with OType _ construct => construct s2 | _ => (inr o, s2) end
  ∧ (∀ o' s3,
       normalize o s2 = (inr o', s3) →
       isinstance_Field_Schema o' = true →
       select_deserializer self v d1 s1 = (inr o', s3))
  ∧ (∀ o' s3,
       normalize o s2 = (inr o', s3) →
       isinstance_Field_Schema o' = false →
       _deserialize MARSHMALLOW_3 self value attr data s =
         (inl (ValidationError (UnableToUseSchema v (class_type_of o'))), s3))
  ∧ (∀ e s3,
       normalize o s2 = (inl e, s3) →
       _deserialize MARSHMALLOW_3 self value attr data s =
         (inl (ValidationError (UnableToUseSchema v (class_type_of o))), s3)).
Proof.
  intros Hsel Hvs Hrun Hcall. split_and!.
  - by destruct o.
  - intros o' s3 Hnorm Hok. by eapply select_deserializer_valid.
  - intros o' s3 Hnorm Hbad. eapply _deserialize_inl; [done..|].
    unfold deserialize_element, bind.
    by rewrite (select_deserializer_invalid _ _ _ _ _ _ _ _ _ Hsel Hcall Hnorm Hbad).
  - intros e s3 Hnorm. eapply _deserialize_inl; [done..|].
    unfold deserialize_element, bind.
    by rewrite (select_deserializer_unbuilt _ _ _ _ _ _ _ _ _ Hsel Hcall Hnorm).
Qed.

Lemma C5_witness :
  _deserialize true (sloppy_field true true)
    (VList [circle 3; shape "line"; circle 1]) attr parent store0 =
  (inl (ValidationError (UnableToUseSchema (shape "line") (Some "str"))),
   <[1%positive := {[ "user" := VStr "alice"; "strict" := VBool true ]}]> store0).
Proof.
  refine (proj1 (proj2 (proj2
    (C5_invalid_delegate_is_refused true (sloppy_field true true)
       (sloppy_selector true) (VList [circle 3; shape "line"; circle 1])
       attr parent store0 [circle 3] (shape "line") [circle 1]
       [VObject "Circle" [("radius", VInt 3); ("owner", VStr "alice")]]
       (VObject "Circle" [("radius", VInt 3); ("owner", VStr "alice")])
       (<[1%positive := {[ "user" := VStr "alice"; "strict" := VBool true ]}]> store0)
       (ODatum (VStr "LineSchema"))
       (<[1%positive := {[ "user" := VStr "alice"; "strict" := VBool true ]}]> store0)
       eq_refl eq_refl _ _)))
    (ODatum (VStr "LineSchema")) _ eq_refl eq_refl).
  - eapply run_cons; [vm_compute; reflexivity | apply run_nil].
  - reflexivity.
Defined.

(** C6 (as amended: for a delegate that has a [context]).  When the
    delegate selected has a context dictionary, at [l], the delegate is
    invoked in a store where that dictionary holds every key of the field's
    context with the field's value, holds its other keys as before, and no
    other dictionary has changed.  On the deserialization path the
    invocation is [delegate], on the serialization path it is [render]. *)
Theorem C6_context_merged_into_bound_delegate
    (MARSHMALLOW_3 : bool) (self : PolyField) (v attr parent : pyval)
    (s : store) (i : instance) (l : loc) (s1 : store) :
  inst_context i = Some l →
  (select_deserializer self v parent s = (inr (OInst i), s1) →
   ∃ s2, merged_into self l s1 s2
     ∧ deserialize_element MARSHMALLOW_3 self v attr parent s =
       delegate MARSHMALLOW_3 (OInst i) v attr parent s2)
  ∧ (call_selector (serialization_schema_selector self) v parent s = (inr (OInst i), s1) →
   ∃ s2, merged_into self l s1 s2
     ∧ serialize_element MARSHMALLOW_3 self v parent s =
       render MARSHMALLOW_3 (OInst i) v s2).
Proof.
  intros Hl. split; intros Hsel;
    exists (<[l := field_context self s1 ∪ read s1 l]> s1);
    (split; [apply dict_update_merged|]).
  - unfold deserialize_element, bind. rewrite Hsel.
    by rewrite (update_context_bound _ _ _ _ Hl).
  - unfold serialize_element, bind. rewrite Hsel.
    by rewrite (schema_context_update_bound _ _ _ _ Hl).
Qed.

Lemma C6_witness :
  ∃ s2,
    (read s2 1%positive !! "user" = Some (VStr "alice")
     ∧ read s2 1%positive !! "strict" = Some (VBool true))
    ∧ deserialize_element true (shape_field true false) (circle 3) attr parent store0 =
      delegate true (OInst (circle_schema true)) (circle 3) attr parent s2.
Proof.
  destruct (proj1 (C6_context_merged_into_bound_delegate true
                     (shape_field true false) (circle 3) attr parent store0
                     (circle_schema true) 1%positive store0 eq_refl) eq_refl)
    as (s2 & (Hfield & Hown & _) & Hcall).
  exists s2. split; [split|exact Hcall].
  - apply Hfield. vm_compute. reflexivity.
  - rewrite Hown; vm_compute; reflexivity.
Defined.

(** C6 as stated fails on the deserialization path: the update is guarded
    by [hasattr(deserializer, 'context')].  The field's context sets
    [user], the selector picks a field bound to no schema, selection
    succeeds, and the delegate is called in the store as it was: it has no
    context dictionary that could hold the key. *)
Lemma C6_unbound_delegate_gets_no_context :
  select_deserializer (echo_field false) (VInt 1) parent store0 =
    (inr (OInst (echo parent)), store0)
  ∧ field_context (echo_field false) store0 !! "user" = Some (VStr "alice")
  ∧ update_context (echo_field false) (OInst (echo parent)) store0 = (inr tt, store0)
  ∧ ¬ (∃ l s2,
         inst_context (echo parent) = Some l
         ∧ update_context (echo_field false) (OInst (echo parent)) store0 = (inr tt, s2)
         ∧ read s2 l !! "user" = Some (VStr "alice")).
Proof.
  split_and!; [reflexivity | by vm_compute | reflexivity |].
  intros (l & s2 & Hl & _). discriminate Hl.
Qed.

(** C7.  For a value other than [None]: whatever [_serialize] raises is a
    [TypeError] whose message is built from the exception that ended the
    body of the [try] and from [value], the whole input of the call (with
    [many] the sequence the failing element is in); the exception of the
    first failing element is that exception; and an element fails with the
    selector's own exception when the selector raises, with an
    [AttributeError] when the schema selected has no [context] to update,
    and with the exception of [dump] (or of reading its [data]) when
    rendering raises. *)
Theorem C7_serialize_wraps_every_exception
    (MARSHMALLOW_3 : bool) (self : PolyField) (value key obj : pyval) (s : store) :
  is_None value = false →
  (∀ e s',
     _serialize MARSHMALLOW_3 self value key obj s = (inl e, s') →
     ∃ err, e = TypeError (FailedToSerialize err value)
       ∧ serialize_try MARSHMALLOW_3 self value obj s = (inl err, s'))
  ∧ (∀ pre v post os s1 err s2,
     elements self value = Some (pre ++ v :: post) →
     serialize_run MARSHMALLOW_3 self obj s pre os s1 →
     serialize_element MARSHMALLOW_3 self v obj s1 = (inl err, s2) →
     _serialize MARSHMALLOW_3 self value key obj s =
       (inl (TypeError (FailedToSerialize err value)), s2))
  ∧ (∀ v s1,
     (∀ err s2,
        call_selector (serialization_schema_selector self) v obj s1 = (inl err, s2) →
        serialize_element MARSHMALLOW_3 self v obj s1 = (inl err, s2))
     ∧ (∀ schema s2,
        call_selector (serialization_schema_selector self) v obj s1 = (inr schema, s2) →
        match schema with OInst i => inst_context i | _ => None end = None →
        serialize_element MARSHMALLOW_3 self v obj s1 =
          (inl (AttributeError (Plain (VStr "context"))), s2))
     ∧ (∀ i l s2 err s3,
        call_selector (serialization_schema_selector self) v obj s1 = (inr (OInst i), s2) →
        inst_context i = Some l →
        render MARSHMALLOW_3 (OInst i) v
          (<[l := field_context self s2 ∪ read s2 l]> s2) = (inl err, s3) →
        serialize_element MARSHMALLOW_3 self v obj s1 = (inl err, s3))).
Proof.
  intros Hv. split_and!.
  - intros e s'. rewrite _serialize_try by done.
    destruct (serialize_try _ _ _ _ s) as [[err|r] s1]; [|done].
    intros [= <- <-]. by exists err.
  - intros pre v post os s1 err s2 Hvs Hrun Hel.
    rewrite _serialize_try by done.
    rewrite (serialize_try_elements _ _ _ _ _ _ Hvs).
    by rewrite (loop_inl _ _ _ _ _ _ _ _ _ _ _ _ _ Hrun Hel).
  - intros v s1. split_and!.
    + intros err s2 Hcall. unfold serialize_element, bind. by rewrite Hcall.
    + intros schema s2 Hcall Hnone. unfold serialize_element, bind.
      by rewrite Hcall, schema_context_update_unbound.
    + intros i l s2 err s3 Hcall Hl Hrender. unfold serialize_element, bind.
      by rewrite Hcall, (schema_context_update_bound _ _ _ _ Hl).
Qed.

Lemma C7_witness :
  _serialize true (shape_field true true)
    (VList [VObject "Circle" [("radius", VInt 3)]; VInt 5]) attr parent store0 =
  (inl (TypeError
          (FailedToSerialize (TypeError (Plain (VStr "Unknown shape")))
             (VList [VObject "Circle" [("radius", VInt 3)]; VInt 5]))),
   <[1%positive := {[ "user" := VStr "alice"; "strict" := VBool true ]}]> store0).
Proof.
  refine (proj1 (proj2
    (C7_serialize_wraps_every_exception true (shape_field true true)
       (VList [VObject "Circle" [("radius", VInt 3)]; VInt 5]) attr parent store0
       eq_refl))
    [VObject "Circle" [("radius", VInt 3)]] (VInt 5) []
    [VDict [("radius", VInt 3)]]
    (<[1%positive := {[ "user" := VStr "alice"; "strict" := VBool true ]}]> store0)
    _ _ eq_refl _ _).
  - eapply run_cons; [vm_compute; reflexivity | apply run_nil].
  - reflexivity.
Defined.

(** C8.  Take an element reached after the elements before it went
    through, for which a schema is selected whose [load], run after the
    context update, reports [errors]: by raising [ValidationError(errors)]
    under marshmallow 3, by returning them beside the data under
    marshmallow 2.  Then the call raises [ValidationError] with those very
    [errors] as its argument, not a message made from them. *)
Theorem C8_schema_errors_propagate
    (MARSHMALLOW_3 : bool) (self : PolyField) (value attr data : pyval)
    (s : store) (pre : list pyval) (v : pyval) (post os : list pyval)
    (d1 : pyval) (s1 : store) (i : instance) (s2 s3 : store)
    (errors : pyval) (s4 : store) :
  elements self value = Some (pre ++ v :: post) →
  deserialize_run MARSHMALLOW_3 self attr data s pre os d1 s1 →
  select_deserializer self v d1 s1 = (inr (OInst i), s2) →
  inst_is_field i = false →
  update_context self (OInst i) s2 = (inr tt, s3) →
  load_reports MARSHMALLOW_3 (inst_load i v s3) errors s4 →
  _deserialize MARSHMALLOW_3 self value attr data s =
    (inl (ValidationError (Plain errors)), s4).
Proof.
  intros Hvs Hrun Hsel Hfield Hctx Hload.
  eapply _deserialize_inl; [done..|].
  unfold deserialize_element, bind. rewrite Hsel, Hctx. simpl.
  rewrite Hfield. unfold bind, load_reports in *.
  destruct MARSHMALLOW_3.
  - by rewrite Hload.
  - destruct Hload as (d & -> & Herr). simpl. by rewrite Herr.
Qed.

Lemma C8_witness :
  _deserialize true (shape_field true true)
    (VList [circle 3; shape "square"]) attr parent store0 =
    (inl (ValidationError (Plain (missing "side"))),
     <[2%positive := {[ "user" := VStr "alice" ]}]>
       (<[1%positive := {[ "user" := VStr "alice"; "strict" := VBool true ]}]> store0))
  ∧ _deserialize false (shape_field false false) (shape "circle") attr parent store0 =
    (inl (ValidationError (Plain (missing "radius"))),
     <[1%positive := {[ "user" := VStr "alice"; "strict" := VBool true ]}]> store0).
Proof.
  split.
  - refine (C8_schema_errors_propagate true (shape_field true true)
              (VList [circle 3; shape "square"]) attr parent store0
              [circle 3] (shape "square") []
              [VObject "Circle" [("radius", VInt 3); ("owner", VStr "alice")]]
              (VObject "Circle" [("radius", VInt 3); ("owner", VStr "alice")])
              (<[1%positive := {[ "user" := VStr "alice"; "strict" := VBool true ]}]> store0)
              (square_schema true)
              (<[1%positive := {[ "user" := VStr "alice"; "strict" := VBool true ]}]> store0)
              (<[2%positive := {[ "user" := VStr "alice" ]}]>
                 (<[1%positive := {[ "user" := VStr "alice"; "strict" := VBool true ]}]> store0))
              (missing "side") _ eq_refl _ eq_refl eq_refl _ _).
    + eapply run_cons; [vm_compute; reflexivity | apply run_nil].
    + vm_compute. reflexivity.
    + vm_compute. reflexivity.
  - refine (C8_schema_errors_propagate false (shape_field false false)
              (shape "circle") attr parent store0
              [] (shape "circle") [] [] parent store0
              (circle_schema false) store0
              (<[1%positive := {[ "user" := VStr "alice"; "strict" := VBool true ]}]> store0)
              (missing "radius") _ eq_refl _ eq_refl eq_refl _ _).
    + apply run_nil.
    + vm_compute. reflexivity.
    + exists (VDict []). split; vm_compute; reflexivity.
Defined.

(** ** Further properties of the two methods *)

Import Lax.

(** *** Helpers *)

Section More_facts.

Variable MARSHMALLOW_3 : bool.

Lemma run_app {D} (step : pyval → D → M pyval) (next : D → pyval → D)
    d s vs1 os1 d1 s1 vs2 os2 d2 s2 :
  run step next d s vs1 os1 d1 s1 →
  run step next d1 s1 vs2 os2 d2 s2 →
  run step next d s (vs1 ++ vs2) (os1 ++ os2) d2 s2.
Proof.
  induction 1 as [d s | d s v vs o os d' s1' s' Hstep Hrun IH]; intros H2; simpl.
  - done.
  - econstructor; [done | by apply IH].
Qed.

(** A turn of either loop looks at the field only through the selector of
    its direction and through [context]. *)
Lemma deserialize_element_ext self1 self2 v attr data s :
  deserialization_schema_selector self1 = deserialization_schema_selector self2 →
  context self1 = context self2 →
  deserialize_element MARSHMALLOW_3 self1 v attr data s =
  deserialize_element MARSHMALLOW_3 self2 v attr data s.
Proof.
  destruct self1, self2. simpl. intros -> ->. reflexivity.
Qed.

Lemma serialize_element_ext self1 self2 v obj s :
  serialization_schema_selector self1 = serialization_schema_selector self2 →
  context self1 = context self2 →
  serialize_element MARSHMALLOW_3 self1 v obj s =
  serialize_element MARSHMALLOW_3 self2 v obj s.
Proof.
  destruct self1, self2. simpl. intros -> ->. reflexivity.
Qed.

Lemma _serialize_inl self value key obj s pre v post os s1 err s2 :
  is_None value = false →
  elements self value = Some (pre ++ v :: post) →
  serialize_run MARSHMALLOW_3 self obj s pre os s1 →
  serialize_element MARSHMALLOW_3 self v obj s1 = (inl err, s2) →
  _serialize MARSHMALLOW_3 self value key obj s =
    (inl (TypeError (FailedToSerialize err value)), s2).
Proof.
  intros Hv Hvs Hrun Hel. rewrite _serialize_try by done.
  rewrite (serialize_try_elements _ _ _ _ _ _ Hvs).
  by rewrite (loop_inl _ _ _ _ _ _ _ _ _ _ _ _ _ Hrun Hel).
Qed.

Lemma _serialize_single self value key obj s :
  many self = false →
  is_None value = false →
  _serialize MARSHMALLOW_3 self value key obj s =
  match serialize_element MARSHMALLOW_3 self value obj s with
  | (inl err, s') => (inl (TypeError (FailedToSerialize err value)), s')
  | (inr r, s') => (inr r, s')
  end.
Proof.
  intros Hmany Hv. rewrite _serialize_try by done.
  unfold serialize_try. by rewrite Hmany.
Qed.

Lemma _serialize_many self value key obj s vs :
  many self = true →
  py_iter value = Some vs →
  _serialize MARSHMALLOW_3 self value key obj s =
  match loop (λ v (_ : unit), serialize_element MARSHMALLOW_3 self v obj)
             (λ u _, u) vs tt [] s with
  | (inl err, s') => (inl (TypeError (FailedToSerialize err value)), s')
  | (inr res, s') => (inr (VList res), s')
  end.
Proof.
  intros Hmany Hvs. rewrite _serialize_try by (by destruct value).
  rewrite (serialize_try_elements MARSHMALLOW_3 self value obj s vs)
    by (unfold elements; by rewrite Hmany).
  rewrite Hmany. by destruct (loop _ _ vs tt [] s) as [[e|r] s1].
Qed.

Lemma _deserialize_many self value attr data s vs :
  many self = true →
  py_iter value = Some vs →
  _deserialize MARSHMALLOW_3 self value attr data s =
  match loop (λ v data, deserialize_element MARSHMALLOW_3 self v attr data)
             (λ _ o, o) vs data [] s with
  | (inl e, s') => (inl e, s')
  | (inr results, s') => (inr (VList results), s')
  end.
Proof.
  intros Hmany Hvs.
  rewrite (_deserialize_elements MARSHMALLOW_3 self value attr data s vs)
    by (unfold elements; by rewrite Hmany).
  by rewrite Hmany.
Qed.

(** The update leaves the field's own context as it is, also when the
    delegate's dictionary is that very dictionary. *)
Lemma dict_update_field_context self l s :
  field_context self (<[l := field_context self s ∪ read s l]> s) =
  field_context self s.
Proof.
  unfold field_context. destruct (context self) as [lf|]; [|done].
  unfold read. destruct (decide (l = lf)) as [->|Hne].
  - rewrite lookup_insert_eq. simpl. apply (idemp_L (∪)).
  - by rewrite lookup_insert_ne.
Qed.

End More_facts.

(** *** A field built without a selector *)

(** X1.  A field built without a deserialization selector fails on the
    first element it is given: calling [None] raises inside the [try], so
    the call raises the validation error that names that element, with no
    class, and the store is untouched. *)
Theorem X1_no_deserialization_selector
    (MARSHMALLOW_3 : bool) (ser : option selector) (many : bool)
    (value attr data : pyval) (s : store) (v : pyval) (rest : list pyval) :
  elements (__init__ ser None many) value = Some (v :: rest) →
  _deserialize MARSHMALLOW_3 (__init__ ser None many) value attr data s =
    (inl (ValidationError (UnableToUseSchema v None)), s).
Proof.
  intros Hvs.
  eapply (_deserialize_inl MARSHMALLOW_3 _ _ _ _ _ [] v rest);
    [exact Hvs | apply run_nil |].
  unfold deserialize_element, bind.
  by rewrite (select_deserializer_raised _ _ _ _
                (TypeError (Plain (VStr "'NoneType' object is not callable"))) s).
Qed.

Lemma X1_witness :
  _deserialize true (__init__ None None false) (circle 3) attr parent store0 =
    (inl (ValidationError (UnableToUseSchema (circle 3) None)), store0).
Proof.
  apply (X1_no_deserialization_selector true None false (circle 3) attr parent
           store0 (circle 3) []).
  reflexivity.
Defined.

(** X2.  A field built without a serialization selector fails on the first
    element of every value other than [None]: the [TypeError] of calling
    [None] is caught and wrapped, and the store is untouched. *)
Theorem X2_no_serialization_selector
    (MARSHMALLOW_3 : bool) (deser : option selector) (many : bool)
    (value key obj : pyval) (s : store) (v : pyval) (rest : list pyval) :
  is_None value = false →
  elements (__init__ None deser many) value = Some (v :: rest) →
  _serialize MARSHMALLOW_3 (__init__ None deser many) value key obj s =
    (inl (TypeError
            (FailedToSerialize
               (TypeError (Plain (VStr "'NoneType' object is not callable")))
               value)), s).
Proof.
  intros Hv Hvs.
  eapply (_serialize_inl MARSHMALLOW_3 _ _ _ _ _ [] v rest);
    [done | exact Hvs | apply run_nil | reflexivity].
Qed.

Lemma X2_witness :
  _serialize false (__init__ None None true)
    (VList [VObject "Circle" [("radius", VInt 3)]]) attr parent store0 =
    (inl (TypeError
            (FailedToSerialize
               (TypeError (Plain (VStr "'NoneType' object is not callable")))
               (VList [VObject "Circle" [("radius", VInt 3)]]))), store0).
Proof.
  apply (X2_no_serialization_selector false None true
           (VList [VObject "Circle" [("radius", VInt 3)]]) attr parent store0
           (VObject "Circle" [("radius", VInt 3)]) []);
    reflexivity.
Defined.

(** *** Inputs at the edge *)

(** X3.  With [many] true, an input with no elements gives the empty list
    on both paths, in the store as it was: whatever the selectors are, even
    missing, none is called. *)
Theorem X3_empty_sequence
    (MARSHMALLOW_3 : bool) (self : PolyField) (value name parent : pyval)
    (s : store) :
  many self = true →
  py_iter value = Some [] →
  _deserialize MARSHMALLOW_3 self value name parent s = (inr (VList []), s)
  ∧ _serialize MARSHMALLOW_3 self value name parent s = (inr (VList []), s).
Proof.
  intros Hmany Hvs. split.
  - by rewrite (_deserialize_many _ _ _ _ _ _ _ Hmany Hvs).
  - by rewrite (_serialize_many _ _ _ _ _ _ _ Hmany Hvs).
Qed.

Lemma X3_witness :
  _deserialize true (__init__ None None true) (VList []) attr parent store0 =
    (inr (VList []), store0)
  ∧ _serialize true (__init__ None None true) (VList []) attr parent store0 =
    (inr (VList []), store0).
Proof.
  apply (X3_empty_sequence true (__init__ None None true) (VList []) attr parent
           store0); reflexivity.
Defined.

(** X4.  With [many] true, an input that cannot be iterated makes
    [_deserialize] raise the bare [TypeError] of the [for] statement, which
    stands outside its [try]: not a validation error.  [_serialize] has the
    [for] inside its [try] and wraps that [TypeError] (for [None] it
    returns before).  No selector is called on either path. *)
Theorem X4_not_iterable
    (MARSHMALLOW_3 : bool) (self : PolyField) (value name parent : pyval)
    (s : store) :
  many self = true →
  py_iter value = None →
  _deserialize MARSHMALLOW_3 self value name parent s =
    (inl (TypeError (Plain (VStr "object is not iterable"))), s)
  ∧ (is_None value = false →
     _serialize MARSHMALLOW_3 self value name parent s =
       (inl (TypeError
               (FailedToSerialize
                  (TypeError (Plain (VStr "object is not iterable"))) value)), s)).
Proof.
  intros Hmany Hvs. split.
  - unfold _deserialize, iterate, bind. by rewrite Hmany, Hvs.
  - intros Hv. rewrite _serialize_try by done.
    unfold serialize_try, iterate, bind. by rewrite Hmany, Hvs.
Qed.

Lemma X4_witness :
  _deserialize true (shape_field true true) VNone attr parent store0 =
    (inl (TypeError (Plain (VStr "object is not iterable"))), store0)
  ∧ _serialize true (shape_field true true) (VInt 5) attr parent store0 =
    (inl (TypeError
            (FailedToSerialize
               (TypeError (Plain (VStr "object is not iterable"))) (VInt 5))),
     store0).
Proof.
  split.
  - apply (proj1 (X4_not_iterable true (shape_field true true) VNone attr parent
                    store0 eq_refl eq_refl)).
  - apply (proj2 (X4_not_iterable true (shape_field true true) (VInt 5) attr
                    parent store0 eq_refl eq_refl)).
    reflexivity.
Defined.

(** *** One value and a list of one value *)

(** X5.  Two fields that differ in [many] only: on the one-element list
    [[v]] the field with [many] behaves as the other does on [v].
    [_deserialize] gives the same exception, or the one-element list of the
    same result.  [_serialize], for [v] other than [None], gives the
    one-element list of the same result, or a [TypeError] around the same
    exception, whose message then shows the list instead of [v]. *)
Theorem X5_single_agrees_with_singleton
    (MARSHMALLOW_3 : bool) (single multi : PolyField)
    (v name parent : pyval) (s : store) :
  many single = false →
  many multi = true →
  deserialization_schema_selector single = deserialization_schema_selector multi →
  serialization_schema_selector single = serialization_schema_selector multi →
  context single = context multi →
  _deserialize MARSHMALLOW_3 multi (VList [v]) name parent s =
    match _deserialize MARSHMALLOW_3 single v name parent s with
    | (inl e, s') => (inl e, s')
    | (inr r, s') => (inr (VList [r]), s')
    end
  ∧ (is_None v = false →
     (∀ r s', _serialize MARSHMALLOW_3 single v name parent s = (inr r, s') →
        _serialize MARSHMALLOW_3 multi (VList [v]) name parent s =
          (inr (VList [r]), s'))
     ∧ (∀ e s', _serialize MARSHMALLOW_3 single v name parent s = (inl e, s') →
        ∃ err, e = TypeError (FailedToSerialize err v)
          ∧ _serialize MARSHMALLOW_3 multi (VList [v]) name parent s =
              (inl (TypeError (FailedToSerialize err (VList [v]))), s'))).
Proof.
  intros Hsingle Hmulti Hdes Hser Hctx. split.
  - rewrite (_deserialize_many MARSHMALLOW_3 multi (VList [v]) name parent s [v] Hmulti eq_refl).
    rewrite _deserialize_single by done. simpl. unfold bind.
    rewrite (deserialize_element_ext _ single multi) by done.
    by destruct (deserialize_element _ multi v name parent s) as [[e|r] s1].
  - intros Hv.
    rewrite (_serialize_many MARSHMALLOW_3 multi (VList [v]) name parent s [v] Hmulti eq_refl).
    rewrite _serialize_single by done. simpl. unfold bind.
    rewrite (serialize_element_ext _ single multi) by done.
    destruct (serialize_element _ multi v parent s) as [[e|r] s1]; split.
    + done.
    + intros e' s' [= <- <-]. by exists e.
    + by intros r' s' [= <- <-].
    + done.
Qed.

Lemma X5_witness :
  _deserialize true (shape_field true true) (VList [circle 3]) attr parent store0 =
    match _deserialize true (shape_field true false) (circle 3) attr parent store0 with
    | (inl e, s') => (inl e, s')
    | (inr r, s') => (inr (VList [r]), s')
    end
  ∧ _serialize true (shape_field true true)
      (VList [VObject "Circle" [("radius", VInt 3)]]) attr parent store0 =
    (inr (VList [VDict [("radius", VInt 3)]]),
     <[1%positive := {[ "user" := VStr "alice"; "strict" := VBool true ]}]> store0).
Proof.
  split.
  - apply (proj1 (X5_single_agrees_with_singleton true (shape_field true false)
                    (shape_field true true) (circle 3) attr parent store0
                    eq_refl eq_refl eq_refl eq_refl eq_refl)).
  - apply (proj1 (proj2 (X5_single_agrees_with_singleton true
                           (shape_field true false) (shape_field true true)
                           (VObject "Circle" [("radius", VInt 3)]) attr parent
                           store0 eq_refl eq_refl eq_refl eq_refl eq_refl)
                        eq_refl)).
    vm_compute. reflexivity.
Defined.

(** *** Delegation *)

(** X6.  When the delegate selected is a [Field] instance (also one that
    is a [Schema] as well: the test for [Field] comes first), the call with
    [many] false is the delegate's [deserialize(v, attr, data)], run after
    the context update: its value is returned as it is under either
    convention, never unpacked, and its exception passes through as it is. *)
Theorem X6_field_delegate_result_is_returned
    (MARSHMALLOW_3 : bool) (self : PolyField) (v attr data : pyval)
    (s : store) (i : instance) (s1 s2 : store) :
  many self = false →
  select_deserializer self v data s = (inr (OInst i), s1) →
  inst_is_field i = true →
  update_context self (OInst i) s1 = (inr tt, s2) →
  _deserialize MARSHMALLOW_3 self v attr data s = inst_deserialize i v attr data s2.
Proof.
  intros Hmany Hsel Hfield Hctx. rewrite _deserialize_single by done.
  unfold deserialize_element, bind. rewrite Hsel, Hctx. simpl. by rewrite Hfield.
Qed.

Lemma X6_witness :
  _deserialize false (echo_field false) (VInt 1) attr parent store0 =
    (inr (VList [VInt 1; parent; parent]), store0).
Proof.
  rewrite (X6_field_delegate_result_is_returned false (echo_field false) (VInt 1)
             attr parent store0 (echo parent) store0 store0
             eq_refl eq_refl eq_refl eq_refl).
  reflexivity.
Defined.

(** X7.  With [many] false and a value other than [None], when the selector
    returns a schema that has a context and whose [dump], run after the
    context update, returns [dump_result]: under marshmallow 3 the call
    returns [dump_result]; under marshmallow 2 it returns the [data] of the
    result and drops its [errors], empty or not.  (On the other path a
    non-empty [errors] raises.) *)
Theorem X7_serialize_single_returns_dump
    (MARSHMALLOW_3 : bool) (self : PolyField) (value key obj : pyval)
    (s : store) (i : instance) (l : loc) (s1 : store)
    (dump_result : pyval) (s3 : store) :
  many self = false →
  is_None value = false →
  call_selector (serialization_schema_selector self) value obj s = (inr (OInst i), s1) →
  inst_context i = Some l →
  inst_dump i value (<[l := field_context self s1 ∪ read s1 l]> s1) =
    (inr dump_result, s3) →
  (MARSHMALLOW_3 = true →
   _serialize MARSHMALLOW_3 self value key obj s = (inr dump_result, s3))
  ∧ (MARSHMALLOW_3 = false →
     ∀ data errors, dump_result = VResult data errors →
     _serialize MARSHMALLOW_3 self value key obj s = (inr data, s3)).
Proof.
  intros Hmany Hv Hsel Hl Hdump.
  assert (serialize_element MARSHMALLOW_3 self value obj s =
          (if MARSHMALLOW_3 then ret dump_result else attr_data dump_result) s3)
    as Hel.
  { unfold serialize_element, bind. rewrite Hsel.
    rewrite (schema_context_update_bound _ _ _ _ Hl).
    unfold render, bind. simpl. by rewrite Hdump. }
  split.
  - intros ->. rewrite _serialize_single by done. by rewrite Hel.
  - intros -> data errors ->. rewrite _serialize_single by done. by rewrite Hel.
Qed.

Lemma X7_witness :
  _serialize false lax_field (VObject "Circle" []) attr parent store0 =
    (inr (VDict []),
     <[1%positive := {[ "user" := VStr "alice"; "strict" := VBool true ]}]> store0).
Proof.
  refine (proj2 (X7_serialize_single_returns_dump false lax_field
                   (VObject "Circle" []) attr parent store0 lax_schema
                   1%positive store0 (VResult (VDict []) (missing "radius")) _
                   eq_refl eq_refl eq_refl eq_refl _)
                eq_refl (VDict []) (missing "radius") eq_refl).
  vm_compute. reflexivity.
Defined.

(** *** The context update *)

(** X8.  The update of a delegate's context, on either path, leaves the
    field's own context as it was (also when the delegate shares the
    field's dictionary), and doing it a second time changes nothing: a
    delegate handed out again and again is not changed any further. *)
Theorem X8_context_update_is_idempotent
    (self : PolyField) (d : pyobj) (s : store) :
  (field_context self (snd (update_context self d s)) = field_context self s
   ∧ update_context self d (snd (update_context self d s)) =
     update_context self d s)
  ∧ (field_context self (snd (schema_context_update self d s)) = field_context self s
     ∧ schema_context_update self d (snd (schema_context_update self d s)) =
       schema_context_update self d s).
Proof.
  assert (∀ l,
    <[l := field_context self (<[l := field_context self s ∪ read s l]> s)
           ∪ read (<[l := field_context self s ∪ read s l]> s) l]>
      (<[l := field_context self s ∪ read s l]> s) =
    <[l := field_context self s ∪ read s l]> s) as Hagain.
  { intros l. rewrite dict_update_field_context. unfold read at 1.
    rewrite lookup_insert_eq. simpl.
    rewrite (assoc_L (∪)), (idemp_L (∪)). apply insert_insert_eq. }
  destruct d as [x|m c|i]; try done.
  destruct (inst_context i) as [l|] eqn:Hl.
  - rewrite !(update_context_bound _ _ _ _ Hl),
      !(schema_context_update_bound _ _ _ _ Hl).
    cbn [snd]. by rewrite Hagain, dict_update_field_context.
  - rewrite !(schema_context_update_unbound self (OInst i)) by done.
    unfold update_context. by rewrite Hl.
Qed.

(** X9.  A field that has no context of its own (one fresh from the
    constructor, bound to no schema) updates with an empty dictionary:
    every dictionary of the store reads after the update as it did
    before. *)
Theorem X9_field_without_context_merges_nothing
    (self : PolyField) (d : pyobj) (s : store) (l : loc) :
  context self = None →
  read (snd (update_context self d s)) l = read s l
  ∧ read (snd (schema_context_update self d s)) l = read s l.
Proof.
  intros Hctx.
  assert (∀ l0, read (<[l0 := field_context self s ∪ read s l0]> s) l = read s l)
    as Hread.
  { intros l0. unfold field_context. rewrite Hctx, (left_id_L ∅ (∪)).
    unfold read. destruct (decide (l0 = l)) as [->|Hne].
    - by rewrite lookup_insert_eq.
    - by rewrite lookup_insert_ne. }
  destruct d as [x|m c|i]; try done.
  destruct (inst_context i) as [l0|] eqn:Hl.
  - rewrite (update_context_bound _ _ _ _ Hl),
      (schema_context_update_bound _ _ _ _ Hl).
    cbn [snd]. split; apply Hread.
  - rewrite (schema_context_update_unbound self (OInst i)) by done.
    unfold update_context. by rewrite Hl.
Qed.

Lemma X9_witness :
  read (snd (update_context (__init__ None None false)
               (OInst (circle_schema true)) store0)) 1%positive =
  {[ "user" := VStr "nobody"; "strict" := VBool true ]}.
Proof.
  rewrite (proj1 (X9_field_without_context_merges_nothing
                    (__init__ None None false) (OInst (circle_schema true))
                    store0 1%positive eq_refl)).
  vm_compute. reflexivity.
Defined.

(** *** Whole calls with [many] *)

(** X10.  With [many] true and an input that iterates as [vs],
    [_deserialize] returns exactly when every element in turn goes through,
    each one started with the result of the one before as its [data], and
    what it returns is the list of their results. *)
Theorem X10_deserialize_many_returns_iff
    (MARSHMALLOW_3 : bool) (self : PolyField) (value attr data : pyval)
    (s : store) (vs : list pyval) (r : pyval) (s' : store) :
  many self = true →
  py_iter value = Some vs →
  _deserialize MARSHMALLOW_3 self value attr data s = (inr r, s')
  ↔ ∃ os d', r = VList os ∧ deserialize_run MARSHMALLOW_3 self attr data s vs os d' s'.
Proof.
  intros Hmany Hvs. rewrite (_deserialize_many _ _ _ _ _ _ _ Hmany Hvs). split.
  - destruct (loop _ _ vs data [] s) as [[e|out] s1] eqn:Hloop; [done|].
    intros [= <- <-].
    destruct (loop_inr _ _ _ _ _ _ _ _ Hloop) as (os & d' & -> & Hrun).
    by exists os, d'.
  - intros (os & d' & -> & Hrun).
    by rewrite (run_loop _ _ _ _ [] _ _ _ _ Hrun).
Qed.

Lemma X10_witness :
  ∃ d', deserialize_run true (shape_field true true) attr parent store0
          [circle 3]
          [VObject "Circle" [("radius", VInt 3); ("owner", VStr "alice")]] d'
          (<[1%positive := {[ "user" := VStr "alice"; "strict" := VBool true ]}]> store0).
Proof.
  destruct (proj1 (X10_deserialize_many_returns_iff true (shape_field true true)
                     (VList [circle 3]) attr parent store0 [circle 3]
                     (VList [VObject "Circle" [("radius", VInt 3); ("owner", VStr "alice")]])
                     (<[1%positive := {[ "user" := VStr "alice"; "strict" := VBool true ]}]> store0)
                     eq_refl eq_refl))
    as (os & d' & Hos & Hrun).
  - vm_compute. reflexivity.
  - injection Hos as <-. by exists d'.
Defined.

(** X11.  With [many] true and an input that iterates as [vs],
    [_deserialize] raises [e] exactly when some element raises [e] after
    all the elements before it went through: the exception is that of the
    first failing element, no list of the results so far is returned, and
    the store is the one that element left, the elements after it not being
    looked at. *)
Theorem X11_deserialize_many_raises_iff
    (MARSHMALLOW_3 : bool) (self : PolyField) (value attr data : pyval)
    (s : store) (vs : list pyval) (e : exn) (s' : store) :
  many self = true →
  py_iter value = Some vs →
  _deserialize MARSHMALLOW_3 self value attr data s = (inl e, s')
  ↔ ∃ pre v post os d1 s1,
      vs = pre ++ v :: post
      ∧ deserialize_run MARSHMALLOW_3 self attr data s pre os d1 s1
      ∧ deserialize_element MARSHMALLOW_3 self v attr d1 s1 = (inl e, s').
Proof.
  intros Hmany Hvs. rewrite (_deserialize_many _ _ _ _ _ _ _ Hmany Hvs). split.
  - destruct (loop _ _ vs data [] s) as [[e'|out] s1] eqn:Hloop; [|done].
    intros [= <- <-]. by eapply loop_inl_inv.
  - intros (pre & v & post & os & d1 & s1 & -> & Hrun & Hel).
    by rewrite (loop_inl _ _ _ _ _ _ [] _ _ _ _ _ _ Hrun Hel).
Qed.

Lemma X11_witness :
  ∃ pre v post os d1 s1,
    [circle 3; triangle; circle 1] = pre ++ v :: post
    ∧ deserialize_run true (shape_field true true) attr parent store0 pre os d1 s1
    ∧ deserialize_element true (shape_field true true) v attr d1 s1 =
      (inl (ValidationError (UnableToUseSchema triangle None)),
       <[1%positive := {[ "user" := VStr "alice"; "strict" := VBool true ]}]> store0).
Proof.
  apply (proj1 (X11_deserialize_many_raises_iff true (shape_field true true)
                  (VList [circle 3; triangle; circle 1]) attr parent store0
                  [circle 3; triangle; circle 1]
                  (ValidationError (UnableToUseSchema triangle None))
                  (<[1%positive := {[ "user" := VStr "alice"; "strict" := VBool true ]}]> store0)
                  eq_refl eq_refl)).
  vm_compute. reflexivity.
Defined.

(** X12.  [_serialize] with [many] true composes over concatenation: when
    a list dumps to [os1] and a second list, started in the store the first
    left, dumps to [os2], the two lists joined dump to [os1 ++ os2] and
    leave the same store. *)
Theorem X12_serialize_many_concatenation
    (MARSHMALLOW_3 : bool) (self : PolyField) (key obj : pyval)
    (vs1 vs2 os1 os2 : list pyval) (s s1 s2 : store) :
  many self = true →
  _serialize MARSHMALLOW_3 self (VList vs1) key obj s = (inr (VList os1), s1) →
  _serialize MARSHMALLOW_3 self (VList vs2) key obj s1 = (inr (VList os2), s2) →
  _serialize MARSHMALLOW_3 self (VList (vs1 ++ vs2)) key obj s =
    (inr (VList (os1 ++ os2)), s2).
Proof.
  intros Hmany.
  rewrite !(_serialize_many MARSHMALLOW_3 self (VList _) key obj _ _ Hmany eq_refl).
  destruct (loop _ _ vs1 tt [] s) as [[e|out1] s1'] eqn:H1; [done|].
  intros [= -> ->].
  destruct (loop _ _ vs2 tt [] s1) as [[e|out2] s2'] eqn:H2; [done|].
  intros [= -> ->].
  destruct (loop_inr _ _ _ _ _ _ _ _ H1) as (o1 & [] & -> & Hrun1).
  destruct (loop_inr _ _ _ _ _ _ _ _ H2) as (o2 & [] & -> & Hrun2).
  by rewrite (run_loop _ _ _ _ [] _ _ _ _ (run_app _ _ _ _ _ _ _ _ _ _ _ _ Hrun1 Hrun2)).
Qed.

Lemma X12_witness :
  _serialize true (shape_field true true)
    (VList ([VObject "Circle" [("radius", VInt 3)]]
            ++ [VObject "Square" [("side", VInt 2)]])) attr parent store0 =
  (inr (VList ([VDict [("radius", VInt 3)]] ++ [VDict [("side", VInt 2)]])),
   <[2%positive := {[ "user" := VStr "alice" ]}]>
     (<[1%positive := {[ "user" := VStr "alice"; "strict" := VBool true ]}]> store0)).
Proof.
  apply (X12_serialize_many_concatenation true (shape_field true true) attr parent
           [VObject "Circle" [("radius", VInt 3)]]
           [VObject "Square" [("side", VInt 2)]]
           [VDict [("radius", VInt 3)]] [VDict [("side", VInt 2)]]
           store0
           (<[1%positive := {[ "user" := VStr "alice"; "strict" := VBool true ]}]> store0)).
  - reflexivity.
  - vm_compute. reflexivity.
  - vm_compute. reflexivity.
Defined.

(** X13.  [_serialize] does not build a class.  When the serialization
    selector answers with a class, the class is not called (the store is
    the one the selector left) and the call raises the wrapping
    [TypeError]; [_deserialize], given the same answer, calls the class and
    goes on with what it builds. *)
Theorem X13_serialize_does_not_build_a_class
    (MARSHMALLOW_3 : bool) (self : PolyField) (value name parent : pyval)
    (s : store) (metaclass : string) (construct : M pyobj) (s1 : store) :
  many self = false →
  is_None value = false →
  (call_selector (serialization_schema_selector self) value parent s =
     (inr (OType metaclass construct), s1) →
   _serialize MARSHMALLOW_3 self value name parent s =
     (inl (TypeError
             (FailedToSerialize (AttributeError (Plain (VStr "context"))) value)),
      s1))
  ∧ (∀ i s2,
       call_selector (deserialization_schema_selector self) value parent s =
         (inr (OType metaclass construct), s1) →
       construct s1 = (inr (OInst i), s2) →
       inst_is_field i || inst_is_schema i = true →
       _deserialize MARSHMALLOW_3 self value name parent s =
         (let* _ := update_context self (OInst i) in
          delegate MARSHMALLOW_3 (OInst i) value name parent) s2).
Proof.
  intros Hmany Hv. split.
  - intros Hsel. rewrite _serialize_single by done.
    unfold serialize_element, bind. by rewrite Hsel.
  - intros i s2 Hsel Hbuild Hok. rewrite _deserialize_single by done.
    unfold deserialize_element, bind at 1.
    unfold select_deserializer, select_try. rewrite Hsel.
    change (normalize (OType metaclass construct) s1) with (construct s1).
    rewrite Hbuild.
    change (isinstance_Field_Schema (OInst i))
      with (inst_is_field i || inst_is_schema i).
    by rewrite Hok.
Qed.

Lemma X13_witness :
  _serialize true (class_field true) (VObject "Square" [("side", VInt 2)])
    attr parent store0 =
    (inl (TypeError
            (FailedToSerialize (AttributeError (Plain (VStr "context")))
               (VObject "Square" [("side", VInt 2)]))), store0)
  ∧ _deserialize true (class_field true) (square 2) attr parent store0 =
    (inr (VObject "Square" [("side", VInt 2); ("owner", VStr "alice")]),
     <[2%positive := {[ "user" := VStr "alice" ]}]> store0).
Proof.
  destruct (X13_serialize_does_not_build_a_class true (class_field true)
              (VObject "Square" [("side", VInt 2)]) attr parent store0
              "SchemaMeta" (ret (OInst (square_schema true))) store0
              eq_refl eq_refl) as [Hs _].
  destruct (X13_serialize_does_not_build_a_class true (class_field true)
              (square 2) attr parent store0
              "SchemaMeta" (ret (OInst (square_schema true))) store0
              eq_refl eq_refl) as [_ Hd].
  split.
  - apply Hs. reflexivity.
  - rewrite (Hd (square_schema true) store0 eq_refl eq_refl eq_refl).
    vm_compute. reflexivity.
Defined.

(** X14.  The test for [None] in [_serialize] looks at the whole value
    only.  With [many] true a [None] among the elements is given to the
    selector like any other element, and a selector that raises on it makes
    the call raise the wrapping [TypeError]: the list is not returned with
    a [None] in it. *)
Theorem X14_None_element_is_dispatched
    (MARSHMALLOW_3 : bool) (self : PolyField) (key obj : pyval) (s : store)
    (pre post os : list pyval) (s1 : store) (err : exn) (s2 : store) :
  many self = true →
  serialize_run MARSHMALLOW_3 self obj s pre os s1 →
  call_selector (serialization_schema_selector self) VNone obj s1 = (inl err, s2) →
  _serialize MARSHMALLOW_3 self (VList (pre ++ VNone :: post)) key obj s =
    (inl (TypeError (FailedToSerialize err (VList (pre ++ VNone :: post)))), s2).
Proof.
  intros Hmany Hrun Hsel.
  eapply (_serialize_inl MARSHMALLOW_3 _ _ _ _ _ pre VNone post);
    [done | unfold elements; by rewrite Hmany | exact Hrun |].
  unfold serialize_element, bind. by rewrite Hsel.
Qed.

Lemma X14_witness :
  _serialize true (shape_field true true) (VList ([] ++ VNone :: [])) attr parent
    store0 =
    (inl (TypeError
            (FailedToSerialize (TypeError (Plain (VStr "Unknown shape")))
               (VList ([] ++ VNone :: [])))), store0).
Proof.
  apply (X14_None_element_is_dispatched true (shape_field true true) attr parent
           store0 [] [] [] store0 (TypeError (Plain (VStr "Unknown shape"))) store0).
  - reflexivity.
  - apply run_nil.
  - reflexivity.
Defined.
